(** * adal/user_realm.py: user realm discovery

    A shallow embedding of the [UserRealm] class of [adal/user_realm.py]
    and the properties of its discovery cycle: building the discovery URL,
    issuing the GET request, and mapping the response into the object's
    fields.

    Python strings are byte strings here ([string] is a list of 8-bit
    characters): this is Python 2's [str], and the UTF-8 encoding that
    Python 3's [quote] works on.  Exceptions are values of [exn]; only
    subclasses of [Exception] are modelled, so [except Exception] and a bare
    [except] catch the same things. *)

From Stdlib Require Import String Ascii List ZArith Bool Arith Lia DecimalString.
Import ListNotations.
Local Open Scope list_scope.
Local Open Scope string_scope.
#[local] Set Warnings "-register-all".

(** ** Exceptions and results *)

Inductive exn : Type :=
| NameError (name : string)
| TypeError (msg : string)
| KeyError (key : string)
| AttributeError (attr : string)
| ValueError (msg : string)
| RequestException (msg : string)
| AdalError (msg : string).

Inductive result (A : Type) : Type :=
| Ok (a : A)
| Raise (e : exn).
Arguments Ok {A} a.
Arguments Raise {A} e.

Definition rbind {A B} (r : result A) (k : A -> result B) : result B :=
  match r with
  | Ok a => k a
  | Raise e => Raise e
  end.

Declare Scope result_scope.
Delimit Scope result_scope with result.
Notation "x <- c ;; k" := (rbind c (fun x => k))
  (at level 61, c at next level, right associativity) : result_scope.

(** ** Python values *)

Inductive pyvalue : Type :=
| PyNone
| PyBool (b : bool)
| PyInt (z : Z)
| PyStr (s : string)
| PyList (l : list pyvalue)
| PyDict (d : list (string * pyvalue))
| PyExc (e : exn)
| PyModule (name : string).

(** A dict literal of strings, as the vocabularies of [constants.py] are. *)
Definition str_dict (d : list (string * string)) : pyvalue :=
  PyDict (map (fun kv => (fst kv, PyStr (snd kv))) d).

(** [bool(v)]: the truth value Python's [if] and [not] use. *)
Definition py_truthy (v : pyvalue) : bool :=
  match v with
  | PyNone => false
  | PyBool b => b
  | PyInt z => negb (Z.eqb z 0)
  | PyStr s => negb (String.eqb s "")
  | PyList l => match l with [] => false | _ => true end
  | PyDict d => match d with [] => false | _ => true end
  | PyExc _ => true
  | PyModule _ => true
  end.

Fixpoint assoc {A} (k : string) (d : list (string * A)) : option A :=
  match d with
  | [] => None
  | (k', v) :: d' => if String.eqb k k' then Some v else assoc k d'
  end.

(** [v[key]] for a string key. *)
Definition py_getitem (v : pyvalue) (key : string) : result pyvalue :=
  match v with
  | PyDict d =>
      match assoc key d with
      | Some x => Ok x
      | None => Raise (KeyError key)
      end
  | PyStr _ => Raise (TypeError "string indices must be integers")
  | PyList _ => Raise (TypeError "list indices must be integers")
  | _ => Raise (TypeError "object is not subscriptable")
  end.

(** [v.values()] *)
Definition py_values (v : pyvalue) : result (list pyvalue) :=
  match v with
  | PyDict d => Ok (map snd d)
  | _ => Raise (AttributeError "values")
  end.

Definition lower_ascii (c : ascii) : ascii :=
  let n := nat_of_ascii c in
  if ((65 <=? n) && (n <=? 90))%nat then ascii_of_nat (n + 32) else c.

(** [str.lower] on the letters A to Z; the other bytes stay. *)
Fixpoint lower (s : string) : string :=
  match s with
  | EmptyString => EmptyString
  | String c s' => String (lower_ascii c) (lower s')
  end.

(** [v.lower()] *)
Definition py_lower (v : pyvalue) : result pyvalue :=
  match v with
  | PyStr s => Ok (PyStr (lower s))
  | _ => Raise (AttributeError "lower")
  end.

(** [a == b], for the comparisons the module makes (a value against a
    vocabulary string).  A string is equal to a string of the same
    characters and to nothing of another type. *)
Definition py_eq (a b : pyvalue) : bool :=
  match a, b with
  | PyStr x, PyStr y => String.eqb x y
  | PyNone, PyNone => true
  | PyBool x, PyBool y => Bool.eqb x y
  | PyInt x, PyInt y => Z.eqb x y
  | PyBool x, PyInt y => Z.eqb (if x then 1 else 0) y
  | PyInt x, PyBool y => Z.eqb x (if y then 1 else 0)
  | _, _ => false
  end.

(** [v in l] *)
Definition py_in (v : pyvalue) (l : list pyvalue) : bool :=
  existsb (py_eq v) l.

(** ** Strings: [str()], [format], [replace] *)

Definition str_of_Z (z : Z) : string :=
  NilZero.string_of_int (Z.to_int z).

Section Str.

(** The text Python prints for a list, a dict, an exception or a module
    depends on the interpreter's [repr]; it is a parameter. *)
Variable repr_other : pyvalue -> string.

(** [str(v)], which is what [format] puts in place of a [{n}] field. *)
Definition py_str (v : pyvalue) : string :=
  match v with
  | PyNone => "None"
  | PyBool true => "True"
  | PyBool false => "False"
  | PyInt z => str_of_Z z
  | PyStr s => s
  | _ => repr_other v
  end.

End Str.

Definition digit_index (c : ascii) : option nat :=
  let n := nat_of_ascii c in
  if ((48 <=? n) && (n <=? 57))%nat then Some (n - 48) else None.

(** [template.format(args...)] for templates whose fields are [{0}] to
    [{9}]; the arguments are already rendered by [py_str]. *)
Fixpoint format (template : string) (args : list string) : string :=
  match template with
  | EmptyString => EmptyString
  | String c rest =>
      match c, rest with
      | "{"%char, String d (String "}"%char rest') =>
          match digit_index d with
          | Some i => nth i args "" ++ format rest' args
          | None => String c (format rest args)
          end
      | _, _ => String c (format rest args)
      end
  end.

Fixpoint starts_with (p s : string) : bool :=
  match p, s with
  | EmptyString, _ => true
  | String a p', String b s' => Ascii.eqb a b && starts_with p' s'
  | String _ _, EmptyString => false
  end.

(** [replace_from old new skip s]: the scan of [str.replace], left to right
    and without overlap; [skip] characters of a match that has just been
    replaced are still to be passed over. *)
Fixpoint replace_from (old new : string) (skip : nat) (s : string) : string :=
  match s with
  | EmptyString => EmptyString
  | String c s' =>
      match skip with
      | S k => replace_from old new k s'
      | O =>
          if starts_with old s
          then new ++ replace_from old new (String.length old - 1) s'
          else String c (replace_from old new 0 s')
      end
  end.

Fixpoint intersperse (new s : string) : string :=
  match s with
  | EmptyString => new
  | String c s' => new ++ String c (intersperse new s')
  end.

(** [s.replace(old, new)] *)
Definition replace (s old new : string) : string :=
  match old with
  | EmptyString => intersperse new s
  | _ => replace_from old new 0 s
  end.

(** ** [urllib]: [quote], [quote_plus], [urlencode] *)

Fixpoint in_str (c : ascii) (s : string) : bool :=
  match s with
  | EmptyString => false
  | String c' s' => Ascii.eqb c c' || in_str c s'
  end.

Definition always_safe : string :=
  "ABCDEFGHIJKLMNOPQRSTUVWXYZabcdefghijklmnopqrstuvwxyz0123456789_.-~".

Definition hex_digit (n : nat) : ascii :=
  nth n (list_ascii_of_string "0123456789ABCDEF") "0"%char.

(** ['%{:02X}'.format(b)] *)
Definition percent_hex (c : ascii) : string :=
  let n := nat_of_ascii c in
  String "%"%char (String (hex_digit (n / 16)) (String (hex_digit (n mod 16)) EmptyString)).

Definition quoter (safe : string) (c : ascii) : string :=
  if in_str c (always_safe ++ safe) then String c EmptyString else percent_hex c.

Fixpoint quote_bytes (safe : string) (s : string) : string :=
  match s with
  | EmptyString => EmptyString
  | String c s' => quoter safe c ++ quote_bytes safe s'
  end.

(** [quote(string, safe)] *)
Definition quote (s : string) (safe : string) : string :=
  match s with
  | EmptyString => s
  | _ => quote_bytes safe s
  end.

(** [quote_plus(string, safe)] *)
Definition quote_plus (s : string) (safe : string) : string :=
  if in_str " "%char s
  then replace (quote s (safe ++ " ")) " " "+"
  else quote s safe.

Fixpoint join (sep : string) (l : list string) : string :=
  match l with
  | [] => EmptyString
  | [x] => x
  | x :: l' => x ++ sep ++ join sep l'
  end.

(** [urlencode(query)] for a dict of strings *)
Definition urlencode (query : list (string * string)) : string :=
  join "&" (map (fun kv => quote_plus (fst kv) "" ++ "=" ++ quote_plus (snd kv) "") query).

(** The value of a hexadecimal digit, of either case. *)
Definition hex_value (c : ascii) : option nat :=
  let n := nat_of_ascii c in
  if ((48 <=? n) && (n <=? 57))%nat then Some (n - 48)
  else if ((65 <=? n) && (n <=? 70))%nat then Some (n - 55)
  else if ((97 <=? n) && (n <=? 102))%nat then Some (n - 87)
  else None.

(** [unquote(s)] on byte strings (Python 2's [unquote], Python 3's
    [unquote_to_bytes]): a [%] followed by two hexadecimal digits is the
    byte they name; any other [%] stands for itself. *)
Fixpoint unquote (s : string) : string :=
  match s with
  | EmptyString => EmptyString
  | String c s' =>
      if Ascii.eqb c "%" then
        match s' with
        | String a (String b rest) =>
            match hex_value a, hex_value b with
            | Some x, Some y => String (ascii_of_nat (16 * x + y)) (unquote rest)
            | _, _ => String c (unquote s')
            end
        | _ => String c (unquote s')
        end
      else String c (unquote s')
  end.

(** ** URLs *)

(** The six components of a parsed URL. *)
Record url : Type := mk_url {
  scheme : string;
  netloc : string;
  path : string;
  params : string;
  query : string;
  fragment : string
}.

Definition set_path (u : url) (p : string) : url :=
  mk_url (scheme u) (netloc u) p (params u) (query u) (fragment u).

Definition set_query (u : url) (q : string) : url :=
  mk_url (scheme u) (netloc u) (path u) (params u) q (fragment u).

Module util.

(** Modelled from the spec: [util.copy_url], absent from the sources; the
    spec's URL utility has "copy(URL) -> independent URL value". *)
Definition copy_url (u : url) : url := u.

(** Modelled from the spec: [util.is_http_success], absent from the
    sources; the spec speaks of a "status code outside the 2xx success
    range". *)
Definition is_http_success (status_code : Z) : bool :=
  (200 <=? status_code)%Z && (status_code <? 300)%Z.

End util.

(** Modelled from the spec: [geturl()] of the URL value, the spec's
    "URL.toString()"; used for a debug message only. *)
Definition geturl (u : url) : string :=
  scheme u ++ "://" ++ netloc u ++
  (if starts_with "/" (path u) then "" else "/") ++ path u ++
  (if String.eqb (params u) "" then "" else ";" ++ params u) ++
  (if String.eqb (query u) "" then "" else "?" ++ query u) ++
  (if String.eqb (fragment u) "" then "" else "#" ++ fragment u).

(** ** The collaborators: HTTP client, logger, constants, [json] *)

(** What the HTTP capability returns: the spec's
    "{statusCode, body, headers}"; [json] is what [resp.json()] does,
    a value or an exception. *)
Record response : Type := mk_response {
  status_code : Z;
  body : pyvalue;
  json : result pyvalue;
  headers : list (string * string)
}.

(** The parts of the program that are outside [user_realm.py], taken as
    parameters: the two vocabularies of [constants.UserRealm], the HTTP GET
    of [requests], [util.create_request_options] (of whose result only
    ['headers'] is read), the standard [json.loads], and [repr]. *)
Record Env : Type := mk_env {
  account_type_vocabulary : list (string * string);
  federation_protocol_vocabulary : list (string * string);
  requests_get : url -> list (string * string) -> result response;
  create_request_options : list (string * string) -> list (string * string);
  json_loads : pyvalue -> result pyvalue;
  repr_other : pyvalue -> string
}.

Inductive log_entry : Type :=
| LogDebug (msg : string)
| LogError (msg : string) (cause : option exn)
| LogCorrelationId (operation : string) (resp : response).

(** ** The object and the state of a run *)

Record UserRealm : Type := mk_UserRealm {
  _log : pyvalue;
  _call_context : pyvalue;
  _api_version : string;
  _federation_protocol : pyvalue;
  _account_type : pyvalue;
  _federation_metadata_url : pyvalue;
  _federation_active_auth_url : pyvalue;
  _user_principle : string;
  _authority : url
}.

(** A run works on the object, writes to the log, and notifies the caller:
    each call of [callback] is recorded with its positional arguments, in
    order.  The callback is the caller's continuation; a call of it is the
    notification, and it returns to the method that made it. *)
Record world : Type := mk_world {
  self : UserRealm;
  logged : list log_entry;
  notified : list (list pyvalue)
}.

Definition M (A : Type) : Type := world -> result A * world.

Definition ret {A} (a : A) : M A := fun w => (Ok a, w).

Definition bind {A B} (m : M A) (k : A -> M B) : M B :=
  fun w =>
    match m w with
    | (Ok a, w') => k a w'
    | (Raise e, w') => (Raise e, w')
    end.

Definition lift {A} (r : result A) : M A := fun w => (r, w).

(** [try: body except Exception as exp: handler] *)
Definition try_except {A} (body : M A) (handler : exn -> M A) : M A :=
  fun w =>
    match body w with
    | (Ok a, w') => (Ok a, w')
    | (Raise e, w') => handler e w'
    end.

Declare Scope py_scope.
Delimit Scope py_scope with py.
Notation "x <- c ;; k" := (bind c (fun x => k))
  (at level 61, c at next level, right associativity) : py_scope.
Notation "c ;; k" := (bind c (fun _ => k))
  (at level 61, right associativity) : py_scope.

Definition get_self : M UserRealm := fun w => (Ok (self w), w).

Definition put_self (s : UserRealm) : M unit :=
  fun w => (Ok tt, mk_world s (logged w) (notified w)).

Definition emit (entry : log_entry) : M unit :=
  fun w => (Ok tt, mk_world (self w) (logged w ++ [entry]) (notified w)).

(** [callback(args...)] *)
Definition callback (args : list pyvalue) : M unit :=
  fun w => (Ok tt, mk_world (self w) (logged w) (notified w ++ [args])).

Module log.

(** Modelled from the spec: the [Logger] of [log.py], absent from the
    sources: "Logger.debug(message), Logger.error(message, cause),
    Logger.createError(message) -> opaque error object". *)
Definition debug (msg : string) : M unit := emit (LogDebug msg).

Definition error (msg : string) (cause : exn) : M unit :=
  emit (LogError msg (Some cause)).

Definition create_error (msg : string) : M pyvalue :=
  bind (emit (LogError msg None)) (fun _ => ret (PyExc (AdalError msg))).

End log.

(** Modelled from the spec: [util.log_return_correlation_id], absent from
    the sources: the correlation identifier of the response "is logged
    alongside the operation name but does not affect control flow". *)
Definition log_return_correlation_id (operation : string) (resp : response) : M unit :=
  emit (LogCorrelationId operation resp).

Definition set_account_type (v : pyvalue) (s : UserRealm) : UserRealm :=
  mk_UserRealm (_log s) (_call_context s) (_api_version s) (_federation_protocol s)
    v (_federation_metadata_url s) (_federation_active_auth_url s)
    (_user_principle s) (_authority s).

Definition set_federation_protocol (v : pyvalue) (s : UserRealm) : UserRealm :=
  mk_UserRealm (_log s) (_call_context s) (_api_version s) v
    (_account_type s) (_federation_metadata_url s) (_federation_active_auth_url s)
    (_user_principle s) (_authority s).

Definition set_federation_metadata_url (v : pyvalue) (s : UserRealm) : UserRealm :=
  mk_UserRealm (_log s) (_call_context s) (_api_version s) (_federation_protocol s)
    (_account_type s) v (_federation_active_auth_url s)
    (_user_principle s) (_authority s).

Definition set_federation_active_auth_url (v : pyvalue) (s : UserRealm) : UserRealm :=
  mk_UserRealm (_log s) (_call_context s) (_api_version s) (_federation_protocol s)
    (_account_type s) (_federation_metadata_url s) v
    (_user_principle s) (_authority s).

(** [self.<field> = v] *)
Definition assign (setter : pyvalue -> UserRealm -> UserRealm) (v : pyvalue) : M unit :=
  bind get_self (fun s => put_self (setter v s)).

(** ** The module [adal/user_realm.py] *)

Definition USER_REALM_PATH_TEMPLATE : string := "common/UserRealm/<user>".

Definition nl : string := String (ascii_of_nat 10) EmptyString.

Section UserRealmClass.

Variable env : Env.

Local Open Scope py_scope.

Definition AccountType : pyvalue := str_dict (account_type_vocabulary env).

Definition FederationProtocolType : pyvalue :=
  str_dict (federation_protocol_vocabulary env).

(** The names the module binds: its imports (lines 23 to 34) and its
    top-level assignments and class (lines 36 to 42).  No built-in is
    called [json] or [constnats]. *)
Definition module_globals : list (string * pyvalue) :=
  [ ("quote", PyModule "urllib.quote");
    ("unquote", PyModule "urllib.unquote");
    ("urlencode", PyModule "urllib.urlencode");
    ("urlparse", PyModule "urlparse.urlparse");
    ("urlsplit", PyModule "urlparse.urlsplit");
    ("requests", PyModule "requests");
    ("constants", PyModule "adal.constants");
    ("log", PyModule "adal.log");
    ("util", PyModule "adal.util");
    ("USER_REALM_PATH_TEMPLATE", PyStr USER_REALM_PATH_TEMPLATE);
    ("AccountType", AccountType);
    ("FederationProtocolType", FederationProtocolType);
    ("UserRealm", PyModule "adal.user_realm.UserRealm") ].

(** Reading a global name; an unbound one raises [NameError]. *)
Definition load_global (name : string) : result pyvalue :=
  match assoc name module_globals with
  | Some v => Ok v
  | None => Raise (NameError name)
  end.

(** [m.loads(s)] *)
Definition call_loads (m : pyvalue) (s : pyvalue) : result pyvalue :=
  match m with
  | PyModule "json" => json_loads env s
  | _ => Raise (AttributeError "loads")
  end.

Definition str (v : pyvalue) : string := py_str (repr_other env) v.

(** [UserRealm.__init__] *)
Definition UserRealm_init (call_context : pyvalue) (user_principle : string)
    (authority : url) : result UserRealm :=
  rbind (py_getitem call_context "log_context") (fun log_context =>
  Ok (mk_UserRealm log_context call_context "1.0" PyNone PyNone PyNone PyNone
        user_principle authority)).

(** [UserRealm._get_user_realm_url] *)
Definition _get_user_realm_url (s : UserRealm) : url :=
  let user_realm_url := util.copy_url (_authority s) in
  let url_encoded_user := quote (_user_principle s) "~()*!.'" in
  let user_realm_url :=
    set_path user_realm_url (replace USER_REALM_PATH_TEMPLATE "<user>" url_encoded_user) in
  let user_realm_query := [("api-version", _api_version s)] in
  let user_realm_url := set_query user_realm_url (urlencode user_realm_query) in
  let user_realm_url := util.copy_url user_realm_url in
  user_realm_url.

(** [UserRealm._validate_constant_value], its body *)
Definition _validate_constant_value_body (constants value case_sensitive : pyvalue)
    : result pyvalue :=
  if negb (py_truthy value) then Ok (PyBool false)
  else
    rbind (if negb (py_truthy case_sensitive) then py_lower value else Ok value)
      (fun value =>
    rbind (load_global "constnats") (fun constnats =>
    rbind (py_values constnats) (fun values =>
    Ok (if py_in value values then value else PyBool false)))).

(** [self._validate_constant_value(args...)]: the method has the three
    parameters [constants], [value] and [case_sensitive] after [self], none
    with a default. *)
Definition _validate_constant_value (args : list pyvalue) : result pyvalue :=
  match args with
  | [constants; value; case_sensitive] =>
      _validate_constant_value_body constants value case_sensitive
  | _ =>
      Raise (TypeError "_validate_constant_value(): wrong number of arguments")
  end.

(** [UserRealm._validate_account_type] *)
Definition _validate_account_type (type : pyvalue) : result pyvalue :=
  rbind (load_global "AccountType") (fun AccountType =>
  _validate_constant_value [AccountType; type]).

(** [UserRealm._validate_federation_protocol] *)
Definition _validate_federation_protocol (protocol : pyvalue) : result pyvalue :=
  rbind (load_global "FederationProtocolType") (fun FederationProtocolType =>
  _validate_constant_value [FederationProtocolType; protocol]).

(** [UserRealm._log_parsed_response] *)
Definition _log_parsed_response : M unit :=
  s <- get_self ;;
  log.debug "UserRealm response:" ;;
  log.debug (format " AccountType:             {0}" [str (_account_type s)]) ;;
  log.debug (format " FederationProtocol:      {0}" [str (_federation_protocol s)]) ;;
  log.debug (format " FederationMetatdataUrl:  {0}" [str (_federation_metadata_url s)]) ;;
  log.debug (format " FederationActiveAuthUrl: {0}" [str (_federation_active_auth_url s)]).

(** Lines 129 to 138 of [_parse_discovery_response]: the federation
    block.  The result says whether the method has returned. *)
Definition federation_block (response : pyvalue) : M bool :=
  s <- get_self ;;
  AccountType <- lift (load_global "AccountType") ;;
  Federated <- lift (py_getitem AccountType "Federated") ;;
  if py_eq (_account_type s) Federated then
    raw_protocol <- lift (py_getitem response "federation_protocol") ;;
    protocol <- lift (_validate_federation_protocol raw_protocol) ;;
    if negb (py_truthy protocol) then
      err <- log.create_error
               (format "Cannot parse federation protocol: {0}" [str protocol]) ;;
      callback [err] ;;
      ret true
    else
      assign set_federation_protocol protocol ;;
      metadata_url <- lift (py_getitem response "federation_metadata_url") ;;
      assign set_federation_metadata_url metadata_url ;;
      active_auth_url <- lift (py_getitem response "federation_active_auth_url") ;;
      assign set_federation_active_auth_url active_auth_url ;;
      ret false
  else ret false.

(** Lines 123 to 141 of [_parse_discovery_response]: what follows the
    [try] statement, for the parsed [response]. *)
Definition map_response (response : pyvalue) : M unit :=
  raw <- lift (py_getitem response "account_type") ;;
  account_type <- lift (_validate_account_type raw) ;;
  if negb (py_truthy account_type) then
    err <- log.create_error (format "Cannot parse account_type: {0}" [str account_type]) ;;
    callback [err]
  else
    assign set_account_type account_type ;;
    returned <- federation_block response ;;
    if (returned : bool) then ret tt
    else
      _log_parsed_response ;;
      callback [PyNone].

(** [UserRealm._parse_discovery_response] *)
Definition _parse_discovery_response (body : pyvalue) : M unit :=
  log.debug (format ("Discovery response:" ++ nl ++ "{0}") [str body]) ;;
  parsed <- try_except
      (json <- lift (load_global "json") ;;
       response <- lift (call_loads json body) ;;
       ret (Some response))
      (fun exp =>
         err <- log.create_error
                  (format "Parsing realm discovery response JSON failed: {0}" [str body]) ;;
         callback [err] ;;
         ret None) ;;
  match parsed with
  | None => ret tt
  | Some response => map_response response
  end.

(** The HTTP error branch of [discover], lines 155 to 165. *)
Definition report_http_error (operation : string) (resp : response) : M unit :=
  let return_error_string :=
    format "{0} request returned http error: {1}" [operation; str (PyInt (status_code resp))] in
  let error_response := PyStr "" in
  diagnosed <-
    (if py_truthy (body resp) then
       let return_error_string :=
         return_error_string ++ format " and server response: {0}" [str (body resp)] in
       error_response <- try_except (lift (json resp)) (fun _ => ret error_response) ;;
       ret (return_error_string, error_response)
     else ret (return_error_string, error_response)) ;;
  err <- log.create_error (fst diagnosed) ;;
  callback [err; snd diagnosed].

(** [UserRealm.discover] *)
Definition discover : M unit :=
  s <- get_self ;;
  let options_headers := create_request_options env [("Accept", "application/json")] in
  let user_realm_url := _get_user_realm_url s in
  log.debug (format "Performing user realm discovery at: {0}" [geturl user_realm_url]) ;;
  let operation := "User Realm Discovery" in
  try_except
    (resp <- lift (requests_get env user_realm_url options_headers) ;;
     log_return_correlation_id operation resp ;;
     if negb (util.is_http_success (status_code resp)) then
       report_http_error operation resp
     else
       _parse_discovery_response (body resp))
    (fun exp =>
       log.error (format "{0} request failed" [operation]) exp ;;
       callback [PyExc exp; PyNone]).

End UserRealmClass.

(** A freshly constructed object and the run of a method on it. *)
Definition fresh_world (s : UserRealm) : world := mk_world s [] [].

Definition run {A} (m : M A) (s : UserRealm) : result A * world := m (fresh_world s).

(** The read-only properties of the class, lines 56 to 74. *)
Definition api_version (s : UserRealm) : string := _api_version s.

Definition federation_protocol (s : UserRealm) : pyvalue := _federation_protocol s.

Definition account_type (s : UserRealm) : pyvalue := _account_type s.

Definition federation_metadata_url (s : UserRealm) : pyvalue := _federation_metadata_url s.

Definition federation_active_auth_url (s : UserRealm) : pyvalue :=
  _federation_active_auth_url s.

(** ** Sample collaborators, for running the model *)

Module Sample.

Definition dq : string := String (ascii_of_nat 34) EmptyString.

Definition q (s : string) : string := dq ++ s ++ dq.

Definition managed_body : string :=
  "{" ++ q "account_type" ++ ":" ++ q "Managed" ++ "}".

Definition federated_body : string :=
  "{" ++ q "account_type" ++ ":" ++ q "Federated" ++ ","
      ++ q "federation_protocol" ++ ":" ++ q "WSFed" ++ ","
      ++ q "federation_metadata_url" ++ ":" ++ q "https://idp/meta" ++ ","
      ++ q "federation_active_auth_url" ++ ":" ++ q "https://idp/auth" ++ "}".

Definition federated_body_without_urls : string :=
  "{" ++ q "account_type" ++ ":" ++ q "Federated" ++ ","
      ++ q "federation_protocol" ++ ":" ++ q "WSFed" ++ "}".

Definition unknown_account_body : string :=
  "{" ++ q "account_type" ++ ":" ++ q "bogus" ++ "}".

(** [json.loads] on the sample bodies. *)
Definition loads (v : pyvalue) : result pyvalue :=
  match v with
  | PyStr s =>
      if String.eqb s managed_body then
        Ok (PyDict [("account_type", PyStr "Managed")])
      else if String.eqb s federated_body then
        Ok (PyDict [("account_type", PyStr "Federated");
                    ("federation_protocol", PyStr "WSFed");
                    ("federation_metadata_url", PyStr "https://idp/meta");
                    ("federation_active_auth_url", PyStr "https://idp/auth")])
      else if String.eqb s federated_body_without_urls then
        Ok (PyDict [("account_type", PyStr "Federated");
                    ("federation_protocol", PyStr "WSFed")])
      else if String.eqb s unknown_account_body then
        Ok (PyDict [("account_type", PyStr "bogus")])
      else Raise (ValueError "No JSON object could be decoded")
  | _ => Raise (TypeError "expected string or buffer")
  end.

Definition account_types : list (string * string) :=
  [("Federated", "federated"); ("Managed", "managed"); ("Unknown", "unknown")].

Definition federation_protocols : list (string * string) :=
  [("WSFederation", "wstrust"); ("WSFed", "wsfed"); ("SAML2", "saml20");
   ("Unknown", "unknown")].

(** The collaborators of a run whose GET has the given outcome. *)
Definition env (outcome : result response) : Env :=
  mk_env account_types federation_protocols
    (fun _ _ => outcome) (fun h => h) loads (fun _ => "<object>").

(** A response with the given status and body, whose [json()] is what
    [loads] makes of the body. *)
Definition reply (status : Z) (text : string) : response :=
  mk_response status (PyStr text) (loads (PyStr text)) [].

Definition authority : url :=
  mk_url "https" "login.example.com" "" "" "" "".

Definition call_context : pyvalue :=
  PyDict [("log_context", PyDict [("correlation_id", PyStr "c0")])].

Definition alice : UserRealm :=
  mk_UserRealm (PyDict [("correlation_id", PyStr "c0")]) call_context "1.0"
    PyNone PyNone PyNone PyNone "alice@example.com" authority.

End Sample.

(** ** The request URL, as the specification words it *)

Module UrlSpec.

Definition between (lo hi : nat) (c : ascii) : bool :=
  let n := nat_of_ascii c in ((lo <=? n) && (n <=? hi))%nat.

(** The unreserved characters of a URL: letters, digits, and [- . _ ~]. *)
Definition unreserved (c : ascii) : bool :=
  between 65 90 c || between 97 122 c || between 48 57 c || in_str c "-._~".

(** The characters the encoding leaves as they are. *)
Definition left_unescaped (c : ascii) : bool :=
  unreserved c || in_str c "~()*!.'".

Definition nibble (n : N) : ascii :=
  match n with
  | 0%N => "0" | 1%N => "1" | 2%N => "2" | 3%N => "3"
  | 4%N => "4" | 5%N => "5" | 6%N => "6" | 7%N => "7"
  | 8%N => "8" | 9%N => "9" | 10%N => "A" | 11%N => "B"
  | 12%N => "C" | 13%N => "D" | 14%N => "E" | _ => "F"
  end%char.

(** [%XX]: the byte's value in two hexadecimal digits. *)
Definition escape (c : ascii) : string :=
  let n := N_of_ascii c in
  String "%"%char
    (String (nibble (N.shiftr n 4)) (String (nibble (N.land n 15)) EmptyString)).

Fixpoint percent_encode (s : string) : string :=
  match s with
  | EmptyString => EmptyString
  | String c s' =>
      (if left_unescaped c then String c EmptyString else escape c) ++ percent_encode s'
  end.

End UrlSpec.

(** ** What the caller observes *)

Definition parse_failure_message (env : Env) (body : pyvalue) : string :=
  "Parsing realm discovery response JSON failed: " ++ str env body.

Definition http_error_message (env : Env) (resp : response) : string :=
  "User Realm Discovery request returned http error: " ++ str_of_Z (status_code resp) ++
  (if py_truthy (body resp) then " and server response: " ++ str env (body resp) else "").

(** The second argument of the callback on an HTTP error: the parsed body
    when there is one and it parses, the empty string otherwise. *)
Definition diagnostic (resp : response) : pyvalue :=
  if py_truthy (body resp) then
    match json resp with
    | Ok v => v
    | Raise _ => PyStr ""
    end
  else PyStr "".


Definition is_success (args : list pyvalue) : bool :=
  match args with
  | PyNone :: _ => true
  | _ => false
  end.

Definition accept_json : list (string * string) := [("Accept", "application/json")].

(** The outcome of the GET that [discover] issues for the object [s]. *)
Definition get_outcome (env : Env) (s : UserRealm) : result response :=
  requests_get env (_get_user_realm_url s) (create_request_options env accept_json).

(** What a caller can observe of a run: how the method ended, the object,
    and the notifications. *)
Definition observed {A} (r : result A * world) : result A * UserRealm * list (list pyvalue) :=
  (fst r, self (snd r), notified (snd r)).



Fixpoint all_chars (p : ascii -> bool) (s : string) : bool :=
  match s with
  | EmptyString => true
  | String c s' => p c && all_chars p s'
  end.

(** The characters an encoded identifier is made of: those left as they
    are, and the [%] of an escape. *)
Definition encoded_char (c : ascii) : bool :=
  UrlSpec.left_unescaped c || Ascii.eqb c "%".

Definition is_str (v : pyvalue) : bool :=
  match v with
  | PyStr _ => true
  | _ => false
  end.

Definition arity_error : exn :=
  TypeError "_validate_constant_value(): wrong number of arguments".

Definition with_authority (a : url) (s : UserRealm) : UserRealm :=
  mk_UserRealm (_log s) (_call_context s) (_api_version s) (_federation_protocol s)
    (_account_type s) (_federation_metadata_url s) (_federation_active_auth_url s)
    (_user_principle s) a.

(** ** Properties of the request builder *)

Lemma append_empty_r (s : string) : s ++ "" = s.
Proof. induction s as [|c s IH]; simpl; [reflexivity | now rewrite IH]. Qed.

Lemma quoter_is_spec (c : ascii) :
  quoter "~()*!.'" c =
  if UrlSpec.left_unescaped c then String c EmptyString else UrlSpec.escape c.
Proof.
  destruct c as [b0 b1 b2 b3 b4 b5 b6 b7].
  destruct b0, b1, b2, b3, b4, b5, b6, b7; vm_compute; reflexivity.
Qed.

Lemma quote_bytes_is_spec (s : string) :
  quote_bytes "~()*!.'" s = UrlSpec.percent_encode s.
Proof.
  induction s as [|c s IH]; simpl; [reflexivity|].
  now rewrite quoter_is_spec, IH.
Qed.

Lemma quote_is_spec (s : string) : quote s "~()*!.'" = UrlSpec.percent_encode s.
Proof.
  destruct s as [|c s]; [reflexivity|].
  unfold quote. apply quote_bytes_is_spec.
Qed.

Lemma template_replace (user : string) :
  replace USER_REALM_PATH_TEMPLATE "<user>" user = "common/UserRealm/" ++ user.
Proof.
  unfold replace, USER_REALM_PATH_TEMPLATE. cbn.
  now rewrite append_empty_r.
Qed.

Lemma init_fields (call_context : pyvalue) (user : string)
    (authority : url) (s : UserRealm) :
  UserRealm_init call_context user authority = Ok s ->
  _api_version s = "1.0" /\ _user_principle s = user /\ _authority s = authority /\
  _account_type s = PyNone /\ _federation_protocol s = PyNone /\
  _federation_metadata_url s = PyNone /\ _federation_active_auth_url s = PyNone.
Proof.
  unfold UserRealm_init.
  destruct (py_getitem call_context "log_context") as [lc|e]; simpl; intros H.
  - injection H as <-. simpl. repeat split; reflexivity.
  - discriminate H.
Qed.

(** ** Properties of the validation helper *)

Lemma json_is_unbound (env : Env) : load_global env "json" = Raise (NameError "json").
Proof. reflexivity. Qed.

Lemma constnats_is_unbound (env : Env) :
  load_global env "constnats" = Raise (NameError "constnats").
Proof. reflexivity. Qed.

Lemma validate_falsy (env : Env) (constants value case_sensitive : pyvalue) :
  py_truthy value = false ->
  _validate_constant_value env [constants; value; case_sensitive] = Ok (PyBool false).
Proof.
  intros H. simpl. unfold _validate_constant_value_body. now rewrite H.
Qed.

Lemma validate_truthy_raises (env : Env) (constants value case_sensitive : pyvalue) :
  py_truthy value = true ->
  exists e, _validate_constant_value env [constants; value; case_sensitive] = Raise e.
Proof.
  intros H. unfold _validate_constant_value, _validate_constant_value_body.
  rewrite H, constnats_is_unbound. cbn [negb].
  destruct (negb (py_truthy case_sensitive)); [destruct (py_lower value) as [v|e]|];
    simpl; eauto.
Qed.

Lemma validate_account_type_raises (env : Env) (type : pyvalue) :
  _validate_account_type env type =
  Raise (TypeError "_validate_constant_value(): wrong number of arguments").
Proof. reflexivity. Qed.

Lemma validate_federation_protocol_raises (env : Env) (protocol : pyvalue) :
  _validate_federation_protocol env protocol =
  Raise (TypeError "_validate_constant_value(): wrong number of arguments").
Proof. reflexivity. Qed.

(** ** Properties of the response mapper and of [discover] *)

Lemma append_assoc3 (a b c : string) : (a ++ b) ++ c = a ++ b ++ c.
Proof. induction a as [|x a IH]; simpl; [reflexivity | now rewrite IH]. Qed.

Lemma format_parse_failure (x : string) :
  format "Parsing realm discovery response JSON failed: {0}" [x] =
  "Parsing realm discovery response JSON failed: " ++ x.
Proof. vm_compute. repeat f_equal. apply append_empty_r. Qed.

Lemma format_http_error (x : string) :
  format "{0} request returned http error: {1}" ["User Realm Discovery"; x] =
  "User Realm Discovery request returned http error: " ++ x.
Proof. vm_compute. repeat f_equal. apply append_empty_r. Qed.

Lemma format_server_response (x : string) :
  format " and server response: {0}" [x] = " and server response: " ++ x.
Proof. vm_compute. repeat f_equal. apply append_empty_r. Qed.

Lemma parse_discovery_response_run (env : Env) (body : pyvalue) (w : world) :
  _parse_discovery_response env body w =
  (Ok tt,
   mk_world (self w)
     ((logged w ++ [LogDebug (format ("Discovery response:" ++ nl ++ "{0}") [str env body])])
        ++ [LogError (parse_failure_message env body) None])
     (notified w ++ [[PyExc (AdalError (parse_failure_message env body))]])).
Proof.
  unfold _parse_discovery_response, bind, try_except, lift, log.debug,
    log.create_error, emit, callback, ret, bind.
  rewrite json_is_unbound, format_parse_failure. reflexivity.
Qed.

Lemma report_http_error_run (env : Env) (resp : response) (w : world) :
  report_http_error env "User Realm Discovery" resp w =
  (Ok tt,
   mk_world (self w)
     (logged w ++ [LogError (http_error_message env resp) None])
     (notified w ++ [[PyExc (AdalError (http_error_message env resp)); diagnostic resp]])).
Proof.
  unfold report_http_error, http_error_message, diagnostic, bind, try_except, lift,
    log.create_error, emit, callback, ret, bind.
  rewrite format_http_error, format_server_response.
  change (str env (PyInt (status_code resp))) with (str_of_Z (status_code resp)).
  destruct (py_truthy (body resp)).
  - rewrite append_assoc3. destruct (json resp) as [v|e]; reflexivity.
  - simpl. now rewrite append_empty_r.
Qed.

Lemma discover_transport_failure (env : Env) (w : world) (e : exn) :
  get_outcome env (self w) = Raise e ->
  observed (discover env w) = (Ok tt, self w, (notified w ++ [[PyExc e; PyNone]])%list).
Proof.
  unfold get_outcome, accept_json. intros H.
  unfold discover, bind, try_except, lift, get_self, log.debug, log.error, emit,
    callback, ret. cbn [self logged notified].
  rewrite H. reflexivity.
Qed.

Lemma discover_http_error (env : Env) (w : world) (resp : response) :
  get_outcome env (self w) = Ok resp ->
  util.is_http_success (status_code resp) = false ->
  observed (discover env w) =
  (Ok tt, self w,
   (notified w ++ [[PyExc (AdalError (http_error_message env resp)); diagnostic resp]])%list).
Proof.
  unfold get_outcome, accept_json. intros H Hs.
  unfold discover, bind at 1 2, try_except, lift, get_self, log.debug,
    log_return_correlation_id, emit. cbn [self logged notified].
  rewrite H. unfold bind at 1 2. rewrite Hs. cbn [negb].
  rewrite report_http_error_run. reflexivity.
Qed.

Lemma discover_http_success (env : Env) (w : world) (resp : response) :
  get_outcome env (self w) = Ok resp ->
  util.is_http_success (status_code resp) = true ->
  observed (discover env w) =
  (Ok tt, self w,
   (notified w ++ [[PyExc (AdalError (parse_failure_message env (body resp)))]])%list).
Proof.
  unfold get_outcome, accept_json. intros H Hs.
  unfold discover, bind at 1 2, try_except, lift, get_self, log.debug,
    log_return_correlation_id, emit. cbn [self logged notified].
  rewrite H. unfold bind at 1 2. rewrite Hs. cbn [negb].
  rewrite parse_discovery_response_run. reflexivity.
Qed.

(** Every run of [discover] ends normally, leaves the object as it was and
    makes one notification, which carries an error. *)
Lemma discover_observed (env : Env) (w : world) :
  exists e rest,
    observed (discover env w) = (Ok tt, self w, (notified w ++ [PyExc e :: rest])%list).
Proof.
  destruct (get_outcome env (self w)) as [resp|e] eqn:H.
  - destruct (util.is_http_success (status_code resp)) eqn:Hs.
    + rewrite (discover_http_success _ _ _ H Hs). eauto.
    + rewrite (discover_http_error _ _ _ H Hs). eauto.
  - rewrite (discover_transport_failure _ _ _ H). eauto.
Qed.

(** Whatever the parsed [response] is, the code that follows the [try]
    statement raises before it writes a field or notifies the caller: the
    subscript fails, or else the validation call does. *)
Lemma map_response_raises (env : Env) (response : pyvalue) (w : world) :
  exists e, map_response env response w = (Raise e, w).
Proof.
  unfold map_response, bind, lift.
  destruct (py_getitem response "account_type") as [raw|e]; [|eauto].
  rewrite validate_account_type_raises. eauto.
Qed.

(** Nor does the federation block write a field: it returns at once when
    the account type is not the Federated value, and raises otherwise, at
    the subscript or at the validation call. *)
Lemma federation_block_writes_nothing (env : Env) (response : pyvalue) (w : world) :
  snd (federation_block env response w) = w.
Proof.
  unfold federation_block, bind, lift, get_self, ret.
  change (load_global env "AccountType") with (Ok (AccountType env)).
  cbv beta iota.
  destruct (py_getitem (AccountType env) "Federated") as [Federated|e]; [|reflexivity].
  destruct (py_eq (_account_type (self w)) Federated); [|reflexivity].
  destruct (py_getitem response "federation_protocol") as [raw|e]; [|reflexivity].
  now rewrite validate_federation_protocol_raises.
Qed.

(** ** The request builder *)

Lemma quoter_keeps_iff (c : ascii) :
  quoter "~()*!.'" c = String c EmptyString <-> UrlSpec.left_unescaped c = true.
Proof.
  rewrite quoter_is_spec.
  destruct (UrlSpec.left_unescaped c); split; intros H; try reflexivity; discriminate H.
Qed.

(** C5: for every authority and user identifier, the URL that
    [_get_user_realm_url] builds for an object constructed with them has the
    path [common/UserRealm/] followed by the percent-encoded identifier, in
    which the unreserved characters and [~ ( ) * ! . '] stand as they are
    and every other character is escaped as [%XX], and has the query string
    [api-version=1.0]; scheme and host are the authority's. *)
Theorem get_user_realm_url_path_and_query
    (call_context : pyvalue) (user : string) (authority : url) (s : UserRealm) :
  UserRealm_init call_context user authority = Ok s ->
  path (_get_user_realm_url s) = "common/UserRealm/" ++ UrlSpec.percent_encode user /\
  query (_get_user_realm_url s) = "api-version=1.0" /\
  scheme (_get_user_realm_url s) = scheme authority /\
  netloc (_get_user_realm_url s) = netloc authority.
Proof.
  intros H. destruct (init_fields _ _ _ _ H) as (Hv & Hu & Ha & _).
  unfold _get_user_realm_url, util.copy_url. cbn [path query scheme netloc set_path set_query].
  rewrite Hv, Hu, Ha, template_replace, quote_is_spec.
  repeat split; reflexivity.
Qed.

Lemma get_user_realm_url_path_and_query_witness :
  UserRealm_init Sample.call_context "alice@example.com" Sample.authority = Ok Sample.alice /\
  path (_get_user_realm_url Sample.alice) =
    "common/UserRealm/" ++ UrlSpec.percent_encode "alice@example.com" /\
  query (_get_user_realm_url Sample.alice) = "api-version=1.0" /\
  scheme (_get_user_realm_url Sample.alice) = scheme Sample.authority /\
  netloc (_get_user_realm_url Sample.alice) = netloc Sample.authority.
Proof.
  split; [reflexivity|].
  apply (get_user_realm_url_path_and_query Sample.call_context "alice@example.com"
           Sample.authority Sample.alice).
  reflexivity.
Defined.

Example alice_url :
  geturl (_get_user_realm_url Sample.alice) =
  "https://login.example.com/common/UserRealm/alice%40example.com?api-version=1.0".
Proof. reflexivity. Qed.

Example percent_encode_mixed :
  quote "a b/c~(x)*!.'@" "~()*!.'" = "a%20b%2Fc~(x)*!.'%40".
Proof. reflexivity. Qed.

(** ** The validation helper *)

(** C4, at a member of the vocabulary: the helper raises [NameError] for
    the misspelt name [constnats] where the claim has it return the
    lowercased value. *)
Theorem validate_constant_value_raises_on_member :
  _validate_constant_value (Sample.env (Raise (RequestException "unused")))
    [str_dict Sample.account_types; PyStr "Managed"; PyBool false]
  = Raise (NameError "constnats").
Proof. reflexivity. Qed.

(** ** The response mapper *)

(** C9: the name [json] is unbound in the module, so for every body
    [_parse_discovery_response] ends normally after notifying the caller
    once, with the error "Parsing realm discovery response JSON failed",
    and leaves the object as it was; and a run of [discover] whose GET gets
    a 2xx response makes that one notification and no successful one. *)
Theorem parse_discovery_response_always_fails (env : Env) :
  load_global env "json" = Raise (NameError "json") /\
  (forall (body : pyvalue) (w : world),
     observed (_parse_discovery_response env body w) =
     (Ok tt, self w,
      (notified w ++ [[PyExc (AdalError (parse_failure_message env body))]])%list)) /\
  (forall (s : UserRealm) (resp : response),
     get_outcome env s = Ok resp ->
     util.is_http_success (status_code resp) = true ->
     notified (snd (run (discover env) s)) =
       [[PyExc (AdalError (parse_failure_message env (body resp)))]] /\
     forall args, In args (notified (snd (run (discover env) s))) -> is_success args = false).
Proof.
  split; [reflexivity|]. split.
  - intros body w. now rewrite parse_discovery_response_run.
  - intros s resp H Hs.
    pose proof (discover_http_success env (fresh_world s) resp H Hs) as E.
    unfold observed in E. injection E as _ _ En.
    unfold run. rewrite En. simpl. split; [reflexivity|].
    intros args [<-|[]]. reflexivity.
Qed.

Lemma parse_discovery_response_always_fails_witness :
  notified (snd (run (discover (Sample.env (Ok (Sample.reply 200 Sample.managed_body))))
                   Sample.alice)) =
  [[PyExc (AdalError (parse_failure_message
                        (Sample.env (Ok (Sample.reply 200 Sample.managed_body)))
                        (PyStr Sample.managed_body)))]].
Proof.
  apply (proj2 (proj2 (parse_discovery_response_always_fails
                         (Sample.env (Ok (Sample.reply 200 Sample.managed_body)))))
           Sample.alice (Sample.reply 200 Sample.managed_body)).
  - reflexivity.
  - reflexivity.
Defined.

(** C1, at the federated body of the specification's scenario: the caller
    is notified of a JSON parsing failure and the four fields stay [None],
    where the claim has a notification without error and the four fields
    set. *)
Theorem federated_body_is_not_mapped :
  observed (run (_parse_discovery_response
                   (Sample.env (Ok (Sample.reply 200 Sample.federated_body)))
                   (PyStr Sample.federated_body)) Sample.alice) =
  (Ok tt, Sample.alice,
   [[PyExc (AdalError ("Parsing realm discovery response JSON failed: "
                       ++ Sample.federated_body))]]).
Proof. reflexivity. Qed.

(** C2, at the managed body of the specification's scenario: the caller is
    notified of a JSON parsing failure and [account_type] stays [None],
    where the claim has a notification without error and [account_type]
    set to the Managed value. *)
Theorem managed_body_is_not_mapped :
  observed (run (_parse_discovery_response
                   (Sample.env (Ok (Sample.reply 200 Sample.managed_body)))
                   (PyStr Sample.managed_body)) Sample.alice) =
  (Ok tt, Sample.alice,
   [[PyExc (AdalError ("Parsing realm discovery response JSON failed: "
                       ++ Sample.managed_body))]]).
Proof. reflexivity. Qed.

(** C3, at a body whose [account_type] is not in the vocabulary: the error
    the caller receives is the JSON parsing failure, where the claim has
    "Cannot parse account_type". *)
Theorem unknown_account_type_is_not_named :
  observed (run (discover (Sample.env (Ok (Sample.reply 200 Sample.unknown_account_body))))
              Sample.alice) =
  (Ok tt, Sample.alice,
   [[PyExc (AdalError ("Parsing realm discovery response JSON failed: "
                       ++ Sample.unknown_account_body))]]).
Proof. reflexivity. Qed.

(** Past the [try] statement the same input would fare no better: a body
    without the field raises [KeyError], and any other raises the
    [TypeError] of the validation call. *)
Example missing_account_type_raises :
  fst (run (map_response (Sample.env (Raise (RequestException "unused"))) (PyDict []))
         Sample.alice) = Raise (KeyError "account_type").
Proof. reflexivity. Qed.

(** C10, at a federated body without the two URL keys: no [KeyError] is
    raised and none reaches the generic handler of [discover]; the caller
    gets the one-argument JSON parsing failure, and [account_type] and
    [federation_protocol] are not set. *)
Theorem missing_urls_raise_no_key_error :
  observed (run (discover (Sample.env (Ok (Sample.reply 200 Sample.federated_body_without_urls))))
              Sample.alice) =
  (Ok tt, Sample.alice,
   [[PyExc (AdalError ("Parsing realm discovery response JSON failed: "
                       ++ Sample.federated_body_without_urls))]]).
Proof. reflexivity. Qed.

(** ** [discover] *)



Example service_unavailable :
  notified (snd (run (discover (Sample.env (Ok (Sample.reply 503 "")))) Sample.alice)) =
  [[PyExc (AdalError "User Realm Discovery request returned http error: 503"); PyStr ""]].
Proof. reflexivity. Qed.

Example transport_failure :
  notified (snd (run (discover (Sample.env (Raise (RequestException "timed out"))))
                   Sample.alice)) =
  [[PyExc (RequestException "timed out"); PyNone]].
Proof. reflexivity. Qed.




(** ** Further properties of the encoding *)

Lemma unquote_plain (c : ascii) (rest : string) :
  Ascii.eqb c "%" = false -> unquote (String c rest) = String c (unquote rest).
Proof. intros H. cbn [unquote]. now rewrite H. Qed.

Lemma unquote_escape (a b : ascii) (x y : nat) (rest : string) :
  hex_value a = Some x -> hex_value b = Some y ->
  unquote (String "%" (String a (String b rest))) =
  String (ascii_of_nat (16 * x + y)) (unquote rest).
Proof. intros Ha Hb. cbn [unquote Ascii.eqb Bool.eqb]. now rewrite Ha, Hb. Qed.

Lemma quoter_shape (c : ascii) :
  (quoter "~()*!.'" c = String c EmptyString /\ Ascii.eqb c "%" = false) \/
  (exists a b x y,
     quoter "~()*!.'" c = String "%" (String a (String b EmptyString)) /\
     hex_value a = Some x /\ hex_value b = Some y /\ ascii_of_nat (16 * x + y) = c).
Proof.
  destruct c as [b0 b1 b2 b3 b4 b5 b6 b7].
  destruct b0, b1, b2, b3, b4, b5, b6, b7;
    first [ left; split; vm_compute; reflexivity
          | right; do 4 eexists; repeat split; vm_compute; reflexivity ].
Qed.

Lemma unquote_quoter (c : ascii) (rest : string) :
  unquote (quoter "~()*!.'" c ++ rest) = String c (unquote rest).
Proof.
  destruct (quoter_shape c) as [[-> H] | (a & b & x & y & -> & Ha & Hb & <-)].
  - cbn [append]. now apply unquote_plain.
  - cbn [append]. now apply unquote_escape.
Qed.

Lemma unquote_quote_bytes (s : string) : unquote (quote_bytes "~()*!.'" s) = s.
Proof.
  induction s as [|c s IH]; [reflexivity|].
  cbn [quote_bytes]. now rewrite unquote_quoter, IH.
Qed.

Lemma unquote_quote (s : string) : unquote (quote s "~()*!.'") = s.
Proof.
  destruct s as [|c s]; [reflexivity|].
  unfold quote. apply unquote_quote_bytes.
Qed.

Lemma append_inv_head (p a b : string) : p ++ a = p ++ b -> a = b.
Proof.
  induction p as [|c p IH]; simpl; intros H; [assumption|].
  injection H as H. now apply IH.
Qed.



Lemma quoter_chars (c : ascii) : all_chars encoded_char (quoter "~()*!.'" c) = true.
Proof.
  destruct c as [b0 b1 b2 b3 b4 b5 b6 b7].
  destruct b0, b1, b2, b3, b4, b5, b6, b7; vm_compute; reflexivity.
Qed.

Lemma all_chars_append (p : ascii -> bool) (a b : string) :
  all_chars p (a ++ b) = all_chars p a && all_chars p b.
Proof.
  induction a as [|c a IH]; simpl; [reflexivity|].
  now rewrite IH, andb_assoc.
Qed.

Lemma all_chars_in (p : ascii -> bool) (s : string) (d : ascii) :
  all_chars p s = true -> in_str d s = true -> p d = true.
Proof.
  induction s as [|c s IH]; simpl; [discriminate|].
  intros Hall Hin. apply andb_true_iff in Hall as [Hc Hs].
  apply orb_true_iff in Hin as [Hd|Hd].
  - apply Ascii.eqb_eq in Hd. now subst.
  - now apply IH.
Qed.

Lemma quote_bytes_chars (s : string) :
  all_chars encoded_char (quote_bytes "~()*!.'" s) = true.
Proof.
  induction s as [|c s IH]; [reflexivity|].
  cbn [quote_bytes]. now rewrite all_chars_append, quoter_chars, IH.
Qed.


(** X2: two objects whose request URLs have the same path have the same
    user identifier: the path determines the user. *)
Theorem url_path_determines_user (s1 s2 : UserRealm) :
  path (_get_user_realm_url s1) = path (_get_user_realm_url s2) ->
  _user_principle s1 = _user_principle s2.
Proof.
  unfold _get_user_realm_url, util.copy_url. cbn [path set_path set_query].
  rewrite !template_replace. intros H. apply append_inv_head in H.
  rewrite <- (unquote_quote (_user_principle s1)), <- (unquote_quote (_user_principle s2)).
  now rewrite H.
Qed.

Lemma url_path_determines_user_witness :
  _user_principle Sample.alice =
  _user_principle (with_authority (mk_url "https" "login.example.org" "/t" "" "x=1" "")
                     Sample.alice).
Proof.
  apply (url_path_determines_user Sample.alice
           (with_authority (mk_url "https" "login.example.org" "/t" "" "x=1" "")
              Sample.alice)).
  vm_compute. reflexivity.
Defined.

(** X3: every character of an encoded identifier is an unreserved
    character, one of [~ ( ) * ! . '], or the [%] of an escape; so the
    encoded identifier holds no [/], [?], [#], [&], [=] or space. *)
Theorem encoded_user_characters (user : string) (d : ascii) :
  in_str d (quote user "~()*!.'") = true ->
  UrlSpec.left_unescaped d = true \/ d = "%"%char.
Proof.
  intros Hin.
  assert (Hall : all_chars encoded_char (quote user "~()*!.'") = true).
  { destruct user as [|c user]; [reflexivity|]. unfold quote. apply quote_bytes_chars. }
  pose proof (all_chars_in _ _ _ Hall Hin) as Hd.
  unfold encoded_char in Hd. apply orb_true_iff in Hd as [Hd|Hd]; [now left|].
  right. now apply Ascii.eqb_eq.
Qed.

Lemma encoded_user_characters_witness :
  UrlSpec.left_unescaped "4"%char = true \/ "4"%char = "%"%char.
Proof.
  apply (encoded_user_characters "alice@example.com" "4"%char). reflexivity.
Defined.


(** X5: the path and the query of the authority are dropped and its other
    components kept: the request URL of an object takes its scheme, host,
    parameters and fragment from the authority, and its path and query are
    the same whatever the authority is. *)
Theorem authority_path_and_query_dropped (s : UserRealm) (a : url) :
  path (_get_user_realm_url (with_authority a s)) = path (_get_user_realm_url s) /\
  query (_get_user_realm_url (with_authority a s)) = query (_get_user_realm_url s) /\
  scheme (_get_user_realm_url (with_authority a s)) = scheme a /\
  netloc (_get_user_realm_url (with_authority a s)) = netloc a /\
  params (_get_user_realm_url (with_authority a s)) = params a /\
  fragment (_get_user_realm_url (with_authority a s)) = fragment a.
Proof.
  unfold _get_user_realm_url, with_authority, util.copy_url.
  cbn [path query scheme netloc params fragment set_path set_query
       _authority _user_principle _api_version].
  repeat split.
Qed.
(** ** Further properties of the validation helpers *)

Lemma validate_body_truthy (env : Env) (constants value case_sensitive : pyvalue) :
  py_truthy value = true ->
  _validate_constant_value_body env constants value case_sensitive =
  Raise (if py_truthy case_sensitive || is_str value
         then NameError "constnats" else AttributeError "lower").
Proof.
  intros H. unfold _validate_constant_value_body.
  rewrite H, constnats_is_unbound. cbn [negb].
  destruct (py_truthy case_sensitive); cbn [negb orb]; [reflexivity|].
  destruct value; reflexivity.
Qed.

(** X6: with its three arguments, [_validate_constant_value] returns only
    for a falsy value (empty string, [None], [False], 0, empty container),
    and what it returns is then [False]; for every other value it raises,
    whatever the vocabulary and the case flag are. *)
Theorem validate_constant_value_returns_iff_falsy
    (env : Env) (constants value case_sensitive r : pyvalue) :
  _validate_constant_value env [constants; value; case_sensitive] = Ok r <->
  py_truthy value = false /\ r = PyBool false.
Proof.
  cbn [_validate_constant_value]. split.
  - destruct (py_truthy value) eqn:H.
    + rewrite (validate_body_truthy _ _ _ _ H). discriminate.
    + unfold _validate_constant_value_body. rewrite H. cbn [negb].
      intros E. injection E as <-. split; reflexivity.
  - intros [H ->]. unfold _validate_constant_value_body. now rewrite H.
Qed.

Lemma validate_constant_value_returns_iff_falsy_witness :
  _validate_constant_value (Sample.env (Raise (RequestException "unused")))
    [str_dict Sample.account_types; PyStr ""; PyBool false] = Ok (PyBool false).
Proof.
  apply (proj2 (validate_constant_value_returns_iff_falsy
                  (Sample.env (Raise (RequestException "unused")))
                  (str_dict Sample.account_types) (PyStr "") (PyBool false) (PyBool false))).
  split; reflexivity.
Defined.

(** X7: for a truthy value the exception is [NameError] for the name
    [constnats] when the value is a string or the match is case-sensitive,
    and [AttributeError] for [lower] when a value that is not a string is
    to be matched without regard to case. *)
Theorem validate_constant_value_exception
    (env : Env) (constants value case_sensitive : pyvalue) :
  py_truthy value = true ->
  _validate_constant_value env [constants; value; case_sensitive] =
  Raise (if py_truthy case_sensitive || is_str value
         then NameError "constnats" else AttributeError "lower").
Proof. intros H. cbn [_validate_constant_value]. now apply validate_body_truthy. Qed.

Lemma validate_constant_value_exception_witness :
  _validate_constant_value (Sample.env (Raise (RequestException "unused")))
    [str_dict Sample.federation_protocols; PyInt 7; PyBool false] =
  Raise (AttributeError "lower").
Proof.
  apply (validate_constant_value_exception (Sample.env (Raise (RequestException "unused")))
           (str_dict Sample.federation_protocols) (PyInt 7) (PyBool false)).
  reflexivity.
Defined.

(** X8: [_validate_account_type] and [_validate_federation_protocol] raise
    [TypeError] for every argument, the empty ones included: they pass two
    arguments to a method that takes three. *)
Theorem validators_always_raise (env : Env) (v : pyvalue) :
  _validate_account_type env v = Raise arity_error /\
  _validate_federation_protocol env v = Raise arity_error.
Proof. split; reflexivity. Qed.

(** ** Further properties of the response mapper *)

(** X9: for every parsed response, the code after the [try] statement of
    [_parse_discovery_response] raises and changes nothing: the exception
    of the subscript when [response['account_type']] fails ([KeyError] for
    a dict without the key), the [TypeError] of the validation call
    otherwise. *)
Theorem map_response_exception (env : Env) (response : pyvalue) (w : world) :
  map_response env response w =
  (Raise match py_getitem response "account_type" with
         | Ok _ => arity_error
         | Raise e => e
         end, w).
Proof.
  unfold map_response, bind, lift.
  destruct (py_getitem response "account_type") as [raw|e]; [|reflexivity].
  now rewrite validate_account_type_raises.
Qed.

(** X10: the federation block of [_parse_discovery_response] writes no
    field, logs nothing and notifies nobody, in any state: it is done at
    once when the account type is not the Federated value, and raises
    otherwise; it never reports a protocol error. *)
Theorem federation_block_has_no_effect (env : Env) (response : pyvalue) (w : world) :
  snd (federation_block env response w) = w /\
  fst (federation_block env response w) <> Ok true.
Proof.
  unfold federation_block, bind, lift, get_self, ret.
  change (load_global env "AccountType") with (Ok (AccountType env)).
  cbv beta iota.
  destruct (py_getitem (AccountType env) "Federated") as [Federated|e];
    [|split; [reflexivity | discriminate]].
  destruct (py_eq (_account_type (self w)) Federated);
    [|split; [reflexivity | discriminate]].
  destruct (py_getitem response "federation_protocol") as [raw|e];
    [|split; [reflexivity | discriminate]].
  rewrite validate_federation_protocol_raises. split; [reflexivity | discriminate].
Qed.

Lemma format_label (label x : string) :
  all_chars (fun c => negb (Ascii.eqb c "{")) label = true ->
  format (label ++ "{0}") [x] = label ++ x.
Proof.
  induction label as [|c label IH]; simpl.
  - intros _. apply append_empty_r.
  - intros H. apply andb_true_iff in H as [Hc Hl].
    destruct (Ascii.eqb_spec c "{") as [->|Hne]; [discriminate Hc|].
    rewrite <- (IH Hl).
    destruct c as [[] [] [] [] [] [] [] []]; try reflexivity.
    now contradiction Hne.
Qed.

(** X11: [_log_parsed_response] never raises and changes neither the
    object nor the notifications; it adds five debug lines to the log, a
    heading and one line for each of the four properties, each rendered by
    [str]. *)
Theorem log_parsed_response_effect (env : Env) (w : world) :
  _log_parsed_response env w =
  (Ok tt,
   mk_world (self w)
     (logged w ++
      [LogDebug "UserRealm response:";
       LogDebug (" AccountType:             " ++ str env (account_type (self w)));
       LogDebug (" FederationProtocol:      " ++ str env (federation_protocol (self w)));
       LogDebug (" FederationMetatdataUrl:  " ++ str env (federation_metadata_url (self w)));
       LogDebug (" FederationActiveAuthUrl: "
                 ++ str env (federation_active_auth_url (self w)))])
     (notified w)).
Proof.
  unfold _log_parsed_response, bind, get_self, log.debug, emit.
  cbn [self logged notified].
  change " AccountType:             {0}" with (" AccountType:             " ++ "{0}").
  change " FederationProtocol:      {0}" with (" FederationProtocol:      " ++ "{0}").
  change " FederationMetatdataUrl:  {0}" with (" FederationMetatdataUrl:  " ++ "{0}").
  change " FederationActiveAuthUrl: {0}" with (" FederationActiveAuthUrl: " ++ "{0}").
  rewrite !format_label by reflexivity.
  rewrite <- !app_assoc. reflexivity.
Qed.
(** ** Further properties of [discover] *)

Lemma format_request_failed :
  format "{0} request failed" ["User Realm Discovery"] = "User Realm Discovery request failed".
Proof. reflexivity. Qed.

(** X12: [discover] never writes a field of the object: whatever the state
    it starts in and whatever the GET does, the object is afterwards as it
    was before. *)
Theorem discover_leaves_object (env : Env) (w : world) :
  self (snd (discover env w)) = self w.
Proof.
  destruct (discover_observed env w) as (e & rest & E).
  unfold observed in E. now injection E as _ Es _.
Qed.

(** X13: when the GET raises, [discover] ends normally; it logs the error
    "User Realm Discovery request failed" with the exception as its cause,
    after the debug line of the request, and hands the exception itself to
    the callback, with [None] as second argument. *)
Theorem transport_failure_is_forwarded (env : Env) (w : world) (e : exn) :
  get_outcome env (self w) = Raise e ->
  discover env w =
  (Ok tt,
   mk_world (self w)
     (logged w ++
      [LogDebug ("Performing user realm discovery at: "
                 ++ geturl (_get_user_realm_url (self w)));
       LogError "User Realm Discovery request failed" (Some e)])
     (notified w ++ [[PyExc e; PyNone]])).
Proof.
  unfold get_outcome, accept_json. intros H.
  unfold discover, bind, try_except, lift, get_self, log.debug, log.error, emit,
    callback, ret. cbn [self logged notified].
  rewrite H, format_request_failed.
  change "Performing user realm discovery at: {0}"
    with ("Performing user realm discovery at: " ++ "{0}").
  rewrite format_label by reflexivity.
  cbn [self logged notified].
  rewrite <- app_assoc. reflexivity.
Qed.

Lemma transport_failure_is_forwarded_witness :
  discover (Sample.env (Raise (RequestException "timed out"))) (fresh_world Sample.alice) =
  (Ok tt,
   mk_world Sample.alice
     [LogDebug ("Performing user realm discovery at: "
                ++ geturl (_get_user_realm_url Sample.alice));
      LogError "User Realm Discovery request failed"
        (Some (RequestException "timed out"))]
     [[PyExc (RequestException "timed out"); PyNone]]).
Proof.
  apply (transport_failure_is_forwarded
           (Sample.env (Raise (RequestException "timed out")))
           (fresh_world Sample.alice) (RequestException "timed out")).
  vm_compute. reflexivity.
Defined.


(** X15: on an object that [__init__] has just made, the properties read
    [1.0] for [api_version] and [None] for the account type, the
    federation protocol and the two URLs, and they still do after
    [discover], whatever the response was. *)
Theorem properties_after_discover
    (env : Env) (call_context : pyvalue) (user : string) (authority : url)
    (s : UserRealm) :
  UserRealm_init call_context user authority = Ok s ->
  let after := self (snd (run (discover env) s)) in
  api_version after = "1.0" /\
  account_type after = PyNone /\
  federation_protocol after = PyNone /\
  federation_metadata_url after = PyNone /\
  federation_active_auth_url after = PyNone.
Proof.
  intros H after.
  destruct (init_fields _ _ _ _ H) as (Hv & _ & _ & Ht & Hp & Hm & Ha).
  destruct (discover_observed env (fresh_world s)) as (e & rest & E).
  unfold observed in E. injection E as _ Es _.
  subst after. unfold run. rewrite Es. cbn [self fresh_world].
  unfold api_version, account_type, federation_protocol, federation_metadata_url,
    federation_active_auth_url.
  now rewrite Hv, Ht, Hp, Hm, Ha.
Qed.

Lemma properties_after_discover_witness :
  let after :=
    self (snd (run (discover (Sample.env (Ok (Sample.reply 200 Sample.federated_body))))
                 Sample.alice)) in
  api_version after = "1.0" /\
  account_type after = PyNone /\
  federation_protocol after = PyNone /\
  federation_metadata_url after = PyNone /\
  federation_active_auth_url after = PyNone.
Proof.
  apply (properties_after_discover
           (Sample.env (Ok (Sample.reply 200 Sample.federated_body)))
           Sample.call_context "alice@example.com" Sample.authority Sample.alice).
  reflexivity.
Defined.

(** X16: [__init__] needs the key [log_context] in the call context: for a
    dict without it, it raises [KeyError] and there is no object; with it,
    the object keeps the user identifier and the authority it was given. *)
Theorem init_needs_log_context
    (d : list (string * pyvalue)) (user : string) (authority : url) :
  match assoc "log_context" d with
  | None => UserRealm_init (PyDict d) user authority = Raise (KeyError "log_context")
  | Some _ =>
      exists s, UserRealm_init (PyDict d) user authority = Ok s /\
                _user_principle s = user /\ _authority s = authority /\
                _call_context s = PyDict d
  end.
Proof.
  unfold UserRealm_init, py_getitem.
  destruct (assoc "log_context" d) as [lc|]; cbn [rbind]; [|reflexivity].
  eexists. repeat split.
Qed.
